(* ===== verification/_CoqProject ===== *)
-Q . S2P
Prelude.v
Json.v
Http.v
Client.v
Lifecycle.v
