(* ===== verification/Prelude.v ===== *)
(** * yoco-python in Rocq: the Yoco payment API client

    The repository is one Python class, [YocoClient] in
    src/yoco_python/client.py: [__init__] stores a secret key, a card
    token, an amount in cents and a currency (default 'ZAR') and clears
    two flags; [charge] POSTs the token, amount and currency to the
    charges endpoint and, on a 201, sets [charge_success] and stores the
    response's ['id'] as [charge_id]; [refund] POSTs the stored
    [charge_id] to the refunds endpoint and, on a 200, sets
    [refund_success] and stores [refund_id]. Both call
    [requests.post] and [response.json()], and return the decoded body
    whatever the status. Errors are not caught.

    ** Files, in dependency order

    - Prelude.v (this file): Python's exceptions [exn]; the outcome of
      Python code ([Return] or [Raise]); the monad [Py S A] of a method
      on a state [S] ([S -> S * outcome A]), in which a raise keeps the
      assignments made before it, as Python does; its notation [let*]
      in [py_scope]; the equivalence [≡] of computations with the monad
      laws and [Proper] instances for setoid rewriting; hint databases
      [py] and [py_rw] and the tactic [py_run].
    - Json.v: the values [response.json()] returns ([json]); Python's
      [d[k]] ([py_getitem]: the value, [KeyError], or the [TypeError] of
      a non-dict); decidable equality; lookup lemmas.
    - Http.v: the URL argument as a Python value ([url_arg]: a str or a
      tuple), responses and prepared requests; the str builtins requests
      applies ([py_str], [py_repr], [py_lower], [py_lstrip]); the
      interface [HttpPost] with its contract [HttpPostSpec] (an
      unroutable URL or an invalid header is rejected with the network
      untouched; otherwise exactly one request goes to the transport);
      [requests_post], a model of requests 2.32's URL preparation,
      header validation and adapter lookup, proved to meet the contract
      ([requests_post_spec]); [scripted_send], a transport that logs the
      requests and replays canned replies, for concrete runs.
    - Client.v: the object as the record [YocoClient] ([charge_id] and
      [refund_id] are options: [None] is an attribute never assigned);
      [init] (__init__, lines 19-25), [charge] (lines 27-48) and [refund]
      (lines 50-69), statement by statement, with their pieces
      ([charge_headers], [charge_body], [charge_handle], [refunds_url],
      [refund_body], [refund_handle], ...). A method runs in
      [Py (W * YocoClient)], the network state [W] on the left.
    - Lifecycle.v: sequences of calls as the step relation [call_step]
      and the reachable states [reachable] from [init]; the invariant
      [client_inv]; the spec's lifecycle as the abstract machine
      [spec_step] on [phase], and [phase_of] from objects to phases.

    ** What is proved

    - [charge], for any HTTP layer meeting [HttpPostSpec] and any
      transport: it sends one request, exactly [charge_request c]
      ([charge_transport]); a 201 with an id sets the flag and stores the
      id ([charge_created]); any other status changes nothing
      ([charge_not_created]); a 201 without an id raises after setting
      the flag ([charge_created_without_id]); an undecodable body raises
      [JSONDecodeError] and changes nothing, even on a 201
      ([charge_undecodable]). Under requests 2.32, the request carries
      the constructor's arguments unmodified for every integer amount
      ([charge_posts_init_args]), and a secret key that is no valid
      header value raises [InvalidHeader] quoting the key
      ([charge_invalid_key_leaks]).
    - [refund]: without a [charge_id] it raises [AttributeError] and
      sends nothing ([refund_without_charge]); for any HTTP layer meeting
      the contract it never sends anything ([refund_raises]), because
      [str()] of the 1-tuple of line 57 has no connection adapter; under
      requests 2.32 the error is exactly [refund_error c], [InvalidSchema]
      once a charge id is stored ([refund_always_fails]). What lines
      65-69 would do on a 200 is proved of [refund_handle]
      ([refund_handle_refunded]), though no call reaches them.
    - The lifecycle: every reachable object keeps its constructor
      arguments, never has [refund_success] or [refund_id] set, and has
      [charge_success] whenever it has a [charge_id]
      ([reachable_client_inv], by rule induction); [charge_success] is
      never cleared ([charge_success_sticky]); from a fresh object,
      [charge] refines a step of the spec's lifecycle or ends in a state
      the spec has no phase for ([charge_refines_spec]; its witness
      reaches that state by a 201 without an id).

    Each theorem with hypotheses has a witness ([..._witness], ending in
    [Defined]) that runs it on the spec's scenarios (a 201 with
    [{"id": "ch_123"}], a 400 with [{"error": "invalid_token"}], a 200
    with [{"id": "rf_456"}]) on the scripted transport behind the
    requests model. No fuel or bound is needed: no code of the program
    loops, and its integers (amount, status) are Python ints, modelled
    as [Z] without a width.

    ** Plan for extending the development

    1. (done) Client.v: the object, [__init__], [charge], [refund].
    2. (done) Lifecycle.v: calls as steps, the invariant, the spec's
       lifecycle and the refinement of its charge step.
    3. The JSON encoding requests applies to the body ([json.dumps] with
       [allow_nan=False]) and a decoder, with the round trip decode
       (encode v) = v, so that the body's keys and values are stated of
       the bytes on the wire.
    4. requests' normalisation of http(s) URLs (parse_url, IDNA,
       re-quoting), replacing the identity on normalised URLs.
    5. The spec's section 9 contract (an explicit ChargeResult value) as
       an abstract specification, with a refinement theorem for [charge].

    ** Not modelled

    - requests itself beyond the steps that decide whether a request
      leaves the process: URL normalisation of http(s) URLs (IDNA,
      re-quoting), session default headers, cookies, proxies, the JSON
      encoding of the body and the network exchange (the transport is a
      parameter). Of urllib3's URL parsing, [prepare_url] keeps the
      outcomes that decide whether a request is sent: no ':' is a
      [MissingSchema], a scheme with an empty authority an [InvalidURL];
      an authority holding only userinfo or a port, and the checks on
      the host's characters, are not distinguished.
    - The json module's decoder: a response body is its decoded value or
      [None] (not JSON); JSON floats are not distinguished from ints.
    - Attribute writes by the caller (the attributes are public): the
      caller only constructs the object and calls its methods. *)

From stdpp Require Import base list strings.
From Stdlib Require Import ZArith.

Declare Scope py_scope.
Delimit Scope py_scope with py.

(** ** Python exceptions

    The exceptions the client can raise: its own attribute and subscript
    errors, [response.json()]'s decode error, and the errors of the
    [requests] library (URL preparation, header validation, adapter
    dispatch, transport). Messages are kept where the client's caller
    can observe them. *)
Inductive exn : Type :=
  | AttributeError (msg : string)
  | KeyError (key : string)
  | TypeError (msg : string)
  | JSONDecodeError
  | MissingSchema (url : string)
  | InvalidURL (msg : string)
  | InvalidSchema (url : string)
  | InvalidHeader (name : string)
  | ConnectionError.

#[export] Instance exn_eq_dec : EqDecision exn.
Proof. solve_decision. Defined.

(** The result of running Python code: it returns or it raises. *)
Inductive outcome (A : Type) : Type :=
  | Return (a : A)
  | Raise (e : exn).
Arguments Return {A} a.
Arguments Raise {A} e.

(** ** The state-and-exception monad of a Python method

    [Py S A] runs on a state [S] (the object's attributes, the network)
    and ends with the state reached and its outcome. A raise keeps the
    state reached so far: Python does not roll back the assignments a
    method made before the exception, and the development depends on it. *)
Definition Py (S A : Type) : Type := S -> S * outcome A.

Section Monad.
Context {S : Type}.

Definition ret {A} (a : A) : Py S A := fun s => (s, Return a).
Definition raise {A} (e : exn) : Py S A := fun s => (s, Raise e).
Definition bind {A B} (m : Py S A) (k : A -> Py S B) : Py S B :=
  fun s => match m s with
           | (s', Return a) => k a s'
           | (s', Raise e) => (s', Raise e)
           end.
Definition get : Py S S := fun s => (s, Return s).
Definition modify (f : S -> S) : Py S unit := fun s => (f s, Return tt).
(** A pure computation that may raise ([d[k]], [response.json()]). *)
Definition of_outcome {A} (o : outcome A) : Py S A := fun s => (s, o).
End Monad.

Notation "'let*' x ':=' m 'in' k" := (bind m (fun x => k))
  (at level 10, x name, m at level 100, k at level 200) : py_scope.
Notation "m ;;; k" := (bind m (fun _ => k))
  (at level 100, right associativity) : py_scope.

(** Running a computation on one half of a paired state: the client's
    methods run on (network, object) and call [requests] on the network. *)
Definition on_fst {S T A} (m : Py S A) : Py (S * T) A :=
  fun st => let '(s', o) := m st.1 in ((s', st.2), o).
Definition on_snd {S T A} (m : Py T A) : Py (S * T) A :=
  fun st => let '(t', o) := m st.2 in ((st.1, t'), o).

(** ** Equivalence of computations

    Two computations are equivalent when they agree on every start state;
    this is the equality the monad laws hold for, and [bind] respects it. *)
#[export] Instance py_equiv {S A} : Equiv (Py S A) :=
  fun m1 m2 => forall s, m1 s = m2 s.

#[export] Instance py_equiv_equivalence {S A} : Equivalence (≡@{Py S A}).
Proof.
  split.
  - by intros m s.
  - intros m1 m2 H s. by rewrite H.
  - intros m1 m2 m3 H1 H2 s. by rewrite H1, H2.
Qed.

#[export] Instance bind_proper {S A B} :
  Proper ((≡) ==> pointwise_relation A (≡) ==> (≡)) (@bind S A B).
Proof.
  intros m1 m2 Hm k1 k2 Hk s. unfold bind. rewrite Hm.
  destruct (m2 s) as [s' [a|e]]; [apply Hk | done].
Qed.

#[export] Instance on_fst_proper {S T A} :
  Proper ((≡) ==> (≡)) (@on_fst S T A).
Proof. intros m1 m2 Hm [s t]. unfold on_fst. by rewrite Hm. Qed.

Section MonadLaws.
Context {S : Type}.

Lemma bind_ret_l {A B} (a : A) (k : A -> Py S B) : bind (ret a) k ≡ k a.
Proof. by intros s. Qed.

Lemma bind_ret_r {A} (m : Py S A) : bind m ret ≡ m.
Proof. intros s. unfold bind. by destruct (m s) as [s' [a|e]]. Qed.

Lemma bind_assoc {A B C} (m : Py S A) (k : A -> Py S B) (h : B -> Py S C) :
  bind (bind m k) h ≡ bind m (fun a => bind (k a) h).
Proof. intros s. unfold bind. by destruct (m s) as [s' [a|e]]. Qed.

Lemma bind_raise {A B} (e : exn) (k : A -> Py S B) : bind (raise e) k ≡ raise e.
Proof. by intros s. Qed.

(** The two run lemmas every proof about a method goes through: a
    statement that returns passes its value and state on, a statement
    that raises ends the method with the state it reached. *)
Lemma bind_run_Return {A B} (m : Py S A) (k : A -> Py S B) s s' a :
  m s = (s', Return a) -> bind m k s = k a s'.
Proof. intros H. unfold bind. by rewrite H. Qed.

Lemma bind_run_Raise {A B} (m : Py S A) (k : A -> Py S B) s s' e :
  m s = (s', Raise e) -> bind m k s = (s', Raise e).
Proof. intros H. unfold bind. by rewrite H. Qed.
End MonadLaws.

Lemma on_fst_run {S T A} (m : Py S A) s t s' (o : outcome A) :
  m s = (s', o) -> on_fst (T:=T) m (s, t) = ((s', t), o).
Proof. intros H. unfold on_fst. simpl. by rewrite H. Qed.

Lemma of_outcome_Return {S A} (a : A) : of_outcome (S:=S) (Return a) = ret a.
Proof. reflexivity. Qed.

Lemma of_outcome_Raise {S A} (e : exn) : of_outcome (S:=S) (A:=A) (Raise e) = raise e.
Proof. reflexivity. Qed.

Create HintDb py discriminated.
Create Rewrite HintDb py_rw.
#[export] Hint Rewrite @of_outcome_Return @of_outcome_Raise @bind_ret_l @bind_raise
  @bind_assoc : py_rw.

(** [py_run_with tac] steps a computation statement by statement, [tac]
    proving the run [m s = (s', o)] of each statement; [py_run] takes the
    runs from the hypotheses. *)
Ltac py_run_with tac :=
  repeat first
    [ progress cbn [fst snd]
    | erewrite bind_run_Return by tac
    | erewrite bind_run_Raise by tac ].

Ltac py_run := py_run_with ltac:(first [ eapply on_fst_run; eassumption | eassumption ]).
