(* ===== verification/Json.v ===== *)
(** * JSON values as Python sees them

    [response.json()] hands the client a Python value built by the [json]
    module: [None], a bool, an int, a str, a list or a dict. The client
    subscripts it with ['id'] (client.py lines 47 and 68), and builds the
    request bodies as dict literals (lines 38-42 and 61-63). This file
    holds the value type, Python's [d[k]] on it (a [KeyError] on a dict
    without the key, a [TypeError] on anything that is not a dict), and
    the lemmas on dict lookup the client's proofs use.

    JSON floats are not distinguished from other non-dict values: the
    client never inspects a number, and [d[k]] treats a float like an int. *)

From stdpp Require Import base list strings.
From Stdlib Require Import ZArith.
From S2P Require Import Prelude.

#[warnings="-register-all"]
Inductive json : Type :=
  | JNull
  | JBool (b : bool)
  | JInt (z : Z)
  | JStr (s : string)
  | JList (items : list json)
  | JDict (items : list (string * json)).

(** Decidable equality, by a nested fixpoint (the derived scheme does not
    see the lists inside [JList] and [JDict]). *)
Fixpoint json_eqb (a b : json) : bool :=
  match a, b with
  | JNull, JNull => true
  | JBool x, JBool y => Bool.eqb x y
  | JInt x, JInt y => Z.eqb x y
  | JStr x, JStr y => bool_decide (x = y)
  | JList xs, JList ys =>
      (fix go xs ys := match xs, ys with
        | [], [] => true
        | x :: xs, y :: ys => json_eqb x y && go xs ys
        | _, _ => false end) xs ys
  | JDict xs, JDict ys =>
      (fix go xs ys := match xs, ys with
        | [], [] => true
        | (k, x) :: xs, (k', y) :: ys =>
            bool_decide (k = k') && json_eqb x y && go xs ys
        | _, _ => false end) xs ys
  | _, _ => false
  end.

(** A strong induction principle that sees the values inside lists and
    dicts. *)
Section JsonInd.
Variable P : json -> Prop.
Hypothesis HNull : P JNull.
Hypothesis HBool : forall b, P (JBool b).
Hypothesis HInt : forall z, P (JInt z).
Hypothesis HStr : forall s, P (JStr s).
Hypothesis HList : forall xs, Forall P xs -> P (JList xs).
Hypothesis HDict : forall kvs, Forall (fun kv => P kv.2) kvs -> P (JDict kvs).

Fixpoint json_ind' (v : json) : P v :=
  match v with
  | JNull => HNull
  | JBool b => HBool b
  | JInt z => HInt z
  | JStr s => HStr s
  | JList xs => HList xs
      ((fix go xs : Forall P xs :=
          match xs with
          | [] => Forall_nil_2 _
          | x :: xs => Forall_cons_2 _ _ _ (json_ind' x) (go xs)
          end) xs)
  | JDict kvs => HDict kvs
      ((fix go kvs : Forall (fun kv => P kv.2) kvs :=
          match kvs with
          | [] => Forall_nil_2 _
          | kv :: kvs => Forall_cons_2 _ _ _ (json_ind' kv.2) (go kvs)
          end) kvs)
  end.
End JsonInd.

Lemma json_eqb_eq (a b : json) : json_eqb a b = true <-> a = b.
Proof.
  revert b. induction a as [| x | x | x | xs IH | kvs IH] using json_ind';
    intros [| y | y | y | ys | ys]; simpl; try (split; congruence).
  - rewrite Bool.eqb_true_iff. split; congruence.
  - rewrite Z.eqb_eq. split; congruence.
  - rewrite bool_decide_eq_true. split; congruence.
  - revert ys. induction IH as [| x xs Hx _ IHxs]; intros [| y ys];
      simpl; try (split; congruence).
    rewrite andb_true_iff, Hx, IHxs. split; [intros [-> [=->]] | intros [=-> ->]]; done.
  - revert ys. induction IH as [| [k x] kvs Hx _ IHkvs]; intros [| [k' y] ys];
      simpl in *; try (split; congruence).
    rewrite !andb_true_iff, bool_decide_eq_true, Hx, IHkvs.
    split; [intros [[-> ->] [=->]] | intros [=-> -> ->]]; done.
Qed.

#[export] Instance json_eq_dec : EqDecision json.
Proof.
  intros a b. destruct (json_eqb a b) eqn:E.
  - left. by apply json_eqb_eq.
  - right. intros <-. assert (json_eqb a a = true) by by apply json_eqb_eq.
    congruence.
Defined.

(** ** Dicts

    A Python dict is an insertion-ordered map with distinct keys; [JDict]
    keeps its items in order. [dict_lookup] is the dict's [get]. *)
Fixpoint dict_lookup (k : string) (items : list (string * json)) : option json :=
  match items with
  | [] => None
  | (k', v) :: rest => if decide (k = k') then Some v else dict_lookup k rest
  end.

(** The keys of a dict, in insertion order. *)
Definition dict_keys (items : list (string * json)) : list string := map fst items.

(** [d[k]] for a str key [k]: the value of [k] in a dict, a [KeyError]
    naming the key when the dict lacks it, and the [TypeError] CPython
    raises when [d] is no dict at all (messages of CPython 3.11). *)
Definition py_getitem (d : json) (k : string) : outcome json :=
  match d with
  | JDict items =>
      match dict_lookup k items with
      | Some v => Return v
      | None => Raise (KeyError k)
      end
  | JList _ => Raise (TypeError "list indices must be integers or slices, not str")
  | JStr _ => Raise (TypeError "string indices must be integers, not 'str'")
  | JNull => Raise (TypeError "'NoneType' object is not subscriptable")
  | JBool _ => Raise (TypeError "'bool' object is not subscriptable")
  | JInt _ => Raise (TypeError "'int' object is not subscriptable")
  end.

(** Whether a value is a dict: the values [d[k]] does not reject with a
    [TypeError]. *)
Definition is_dict (d : json) : bool :=
  match d with JDict _ => true | _ => false end.

(** ** Lemmas on lookup and subscription *)

Lemma dict_lookup_head k v rest : dict_lookup k ((k, v) :: rest) = Some v.
Proof. simpl. by rewrite decide_True. Qed.

Lemma dict_lookup_skip k k' v rest :
  k <> k' -> dict_lookup k ((k', v) :: rest) = dict_lookup k rest.
Proof. intros Hne. simpl. by rewrite decide_False. Qed.

Lemma dict_lookup_In k v items : dict_lookup k items = Some v -> In (k, v) items.
Proof.
  induction items as [| [k' v'] rest IH]; simpl; [done |].
  case_decide; [intros [= ->]; subst; by left | intros Hl; right; auto].
Qed.

Lemma dict_lookup_None k items : dict_lookup k items = None <-> k ∉ dict_keys items.
Proof.
  induction items as [| [k' v'] rest IH]; simpl.
  - split; [intros _; apply not_elem_of_nil | done].
  - rewrite not_elem_of_cons, <- IH. case_decide; naive_solver.
Qed.

Lemma py_getitem_Return d k v :
  py_getitem d k = Return v <-> exists items, d = JDict items /\ dict_lookup k items = Some v.
Proof.
  destruct d as [| | | | | items]; simpl; try (split; [discriminate | naive_solver]).
  destruct (dict_lookup k items) eqn:E; naive_solver.
Qed.

Lemma py_getitem_dict items k v :
  dict_lookup k items = Some v -> py_getitem (JDict items) k = Return v.
Proof. intros H. simpl. by rewrite H. Qed.

Lemma py_getitem_not_dict d k :
  is_dict d = false -> exists msg, py_getitem d k = Raise (TypeError msg).
Proof. destruct d; simpl; eauto; discriminate. Qed.

Lemma py_getitem_missing items k :
  k ∉ dict_keys items -> py_getitem (JDict items) k = Raise (KeyError k).
Proof. intros Hk. simpl. by rewrite (proj2 (dict_lookup_None k items) Hk). Qed.

#[export] Hint Resolve dict_lookup_head : py.
#[export] Hint Rewrite dict_lookup_head : py_rw.
