(* ===== verification/Http.v ===== *)
(** * The HTTP layer: [requests.post] and the network behind it

    The client calls [requests.post(url, headers=headers, json=json)]
    (client.py lines 43 and 64) and reads [response.status_code] and
    [response.json()]. This file holds

    - the data the call exchanges: the URL argument as the Python value
      the client passes (a str, or the 1-tuple of line 57), the header
      dict, the prepared request and the response;
    - the Python [str] builtins requests applies to the URL ([str()],
      [repr()], [lower()], [lstrip()], [startswith]);
    - the interface [HttpPost] / [HttpPostSpec]: what [requests.post]
      promises the client (an unroutable URL or an invalid header is
      rejected before any I/O; otherwise exactly one prepared request is
      handed to the transport);
    - [requests_post], a model of requests 2.32's pipeline (prepare_url,
      prepare_headers, Session.get_adapter, then the transport), with the
      proof that it meets the interface.

    requests is a library the repository only calls: its model follows
    requests 2.32 (models.py, sessions.py, utils.py) for the steps that
    decide whether a request leaves the process. URL normalisation of
    http(s) URLs (IDNA, re-quoting), session default headers and the JSON
    encoding of the body are not modelled; the transport is abstract. *)

From stdpp Require Import base list strings.
From Stdlib Require Import ZArith String Ascii.
From S2P Require Import Prelude Json.

Local Open Scope py_scope.

(** ** Data *)

(** The Python value passed as [url]: a str or a tuple of such values. *)
#[warnings="-register-all"]
Inductive url_arg : Type :=
  | UrlStr (s : string)
  | UrlTuple (items : list url_arg).

(** A response: its status code and the outcome of [response.json()]
    ([None] when the body is not JSON: [response.json()] raises). *)
Record response : Type := mk_response {
  status_code : Z;
  resp_body : option json
}.

(** [response.json()] *)
Definition response_json (r : response) : outcome json :=
  match resp_body r with
  | Some v => Return v
  | None => Raise JSONDecodeError
  end.

(** A prepared request as handed to the transport adapter. *)
Record prepared_request : Type := mk_prepared {
  pr_method : string;
  pr_url : string;
  pr_headers : list (string * string);
  pr_json : json
}.

(** ** Python str builtins on ASCII text *)

Definition code (c : ascii) : N := N_of_ascii c.

(** [str.isspace] (and [\s] of [re] on str patterns) on one character,
    a code point below 256: tab to carriage return, the separators
    U+001C to U+001F, space, NEL (U+0085) and no-break space (U+00A0). *)
Definition is_py_space (c : ascii) : bool :=
  let n := code c in
  (((9 <=? n) && (n <=? 13)) || ((28 <=? n) && (n <=? 32)) || (n =? 133) || (n =? 160))%N.

Definition lower_char (c : ascii) : ascii :=
  let n := code c in
  if ((65 <=? n) && (n <=? 90))%N then ascii_of_N (n + 32) else c.

(** [s.lower()] *)
Fixpoint py_lower (s : string) : string :=
  match s with
  | EmptyString => EmptyString
  | String c s' => String (lower_char c) (py_lower s')
  end.

(** [s.lstrip()] *)
Fixpoint py_lstrip (s : string) : string :=
  match s with
  | String c s' => if is_py_space c then py_lstrip s' else s
  | EmptyString => EmptyString
  end.

(** [s.startswith(p)] *)
Definition py_startswith (s p : string) : bool := String.prefix p s.

(** [c in s] for a one-character [c] *)
Fixpoint py_has_char (c : ascii) (s : string) : bool :=
  match s with
  | EmptyString => false
  | String c' s' => bool_decide (c = c') || py_has_char c s'
  end.

Definition backslash : ascii := ascii_of_N 92.
Definition squote : ascii := ascii_of_N 39.
Definition dquote : ascii := ascii_of_N 34.

Definition hex_digit (n : N) : ascii :=
  (if n <? 10 then ascii_of_N (48 + n) else ascii_of_N (87 + n))%N.

(** One character of [repr(s)] with quote [q]. *)
Definition repr_char (q c : ascii) : string :=
  let n := code c in
  (if bool_decide (c = q) || (n =? 92) then String backslash (String c EmptyString)
  else if n =? 9 then "\t"
  else if n =? 10 then "\n"
  else if n =? 13 then "\r"
  else if (n <? 32) || ((127 <=? n) && (n <=? 160)) || (n =? 173)
  then String backslash (String "x"%char (String (hex_digit (n / 16)) (String (hex_digit (n mod 16)) EmptyString)))
  else String c EmptyString)%N.

(** [repr(s)]: single quotes, unless [s] holds a single quote and no
    double quote. *)
Definition py_repr_str (s : string) : string :=
  let q := if py_has_char squote s && negb (py_has_char dquote s) then dquote else squote in
  let fix go s := match s with
                  | EmptyString => EmptyString
                  | String c s' => repr_char q c +:+ go s'
                  end in
  String q (go s +:+ String q EmptyString).

(** [repr(v)] and [str(v)] of a URL argument; a 1-tuple prints with a
    trailing comma. *)
Fixpoint py_repr (v : url_arg) : string :=
  match v with
  | UrlStr s => py_repr_str s
  | UrlTuple items =>
      let reprs := map py_repr items in
      match reprs with
      | [r] => "(" +:+ r +:+ ",)"
      | _ => "(" +:+ String.concat ", " reprs +:+ ")"
      end
  end.

Definition py_str (v : url_arg) : string :=
  match v with
  | UrlStr s => s
  | UrlTuple _ => py_repr v
  end.

Lemma prefix_app_l (p1 p2 s : string) :
  String.prefix (p1 +:+ p2) s = true -> String.prefix p1 s = true.
Proof.
  revert s. induction p1 as [| c p1 IH]; intros [| c' s]; simpl; try done.
  destruct (ascii_dec c c'); [apply IH | done].
Qed.

(** ** requests 2.32: from [requests.post] to the transport *)

(** A URL has a connection adapter: the session mounts adapters for the
    prefixes ["https://"] and ["http://"] and compares case-insensitively. *)
Definition routable (url : string) : bool :=
  py_startswith (py_lower url) "https://" || py_startswith (py_lower url) "http://".

(** The text after the first "://" of a URL, if it has one. *)
Fixpoint after_scheme_sep (s : string) : option string :=
  match s with
  | EmptyString => None
  | String _ s' =>
      if String.prefix "://" s then Some (String.substring 3 (String.length s - 3) s)
      else after_scheme_sep s'
  end.

(** The authority after "://" is not empty: it does not end at once in
    '/', '?', '#' or the end of the text. *)
Definition host_supplied (rest : string) : bool :=
  match rest with
  | EmptyString => false
  | String c _ => negb (bool_decide (c ∈ ["/"; "?"; "#"]%char))
  end.

Definition url_host_ok (url : string) : bool :=
  match after_scheme_sep url with
  | Some rest => host_supplied rest
  | None => false
  end.

(** [PreparedRequest.prepare_url]: [str(url).lstrip()]; a URL with a ':'
    that does not start with "http" is kept as it is (the branch meant for
    [mailto:] and [data:] URLs); any other URL is parsed: no ':' means no
    scheme ([MissingSchema]), a scheme with no host is an [InvalidURL], and
    a URL with a host is kept (its normalisation, IDNA and re-quoting, is
    not modelled). *)
Definition prepare_url (u : url_arg) : outcome string :=
  let url := py_lstrip (py_str u) in
  if py_has_char ":" url && negb (py_startswith (py_lower url) "http") then Return url
  else if url_host_ok url then Return url
  else if py_has_char ":" url
  then Raise (InvalidURL ("Invalid URL " +:+ py_repr_str url +:+ ": No host supplied"))
  else Raise (MissingSchema ("Invalid URL " +:+ py_repr_str url
                             +:+ ": No scheme supplied. Perhaps you meant https://" +:+ url +:+ "?")).

(** [[^...]*$] after the first character, with [re]'s [$], which also
    matches just before a final newline. *)
Fixpoint tail_ok (forbidden : list N) (t : string) : bool :=
  match t with
  | EmptyString => true
  | String c EmptyString => bool_decide (code c = 10%N) || negb (bool_decide (code c ∈ forbidden))
  | String c t' => negb (bool_decide (code c ∈ forbidden)) && tail_ok forbidden t'
  end.

(** The header-name pattern [^[^:\s][^:\r\n]*$]. *)
Definition valid_header_name (n : string) : bool :=
  match n with
  | EmptyString => false
  | String c t => negb (is_py_space c) && negb (code c =? 58)%N && tail_ok [58; 13; 10]%N t
  end.

(** The header-value pattern [^\S[^\r\n]*$|^$]. *)
Definition valid_header_value (v : string) : bool :=
  match v with
  | EmptyString => true
  | String c t => (negb (is_py_space c) && tail_ok [13; 10]%N t) || bool_decide (v = String (ascii_of_N 10) EmptyString)
  end.

Definition invalid_header_msg (kind part : string) : string :=
  "Invalid leading whitespace, reserved character(s), or return character(s) in header "
  +:+ kind +:+ ": " +:+ py_repr_str part.

(** [PreparedRequest.prepare_headers]: [check_header_validity] on every
    header in order, the name before the value. The message repeats the
    offending part, so an invalid secret key is quoted in the exception. *)
Fixpoint prepare_headers (hs : list (string * string)) : outcome unit :=
  match hs with
  | [] => Return tt
  | (n, v) :: rest =>
      if negb (valid_header_name n) then Raise (InvalidHeader (invalid_header_msg "name" n))
      else if negb (valid_header_value v) then Raise (InvalidHeader (invalid_header_msg "value" v))
      else prepare_headers rest
  end.

Definition headers_valid (hs : list (string * string)) : bool :=
  match prepare_headers hs with Return _ => true | Raise _ => false end.

(** [Session.get_adapter] *)
Definition get_adapter (url : string) : outcome unit :=
  if routable url then Return tt
  else Raise (InvalidSchema ("No connection adapters were found for " +:+ py_repr_str url)).

(** [requests.post(url, headers=hs, json=body)]: prepare the URL, then the
    headers, then find the adapter; only then is the request sent. *)
Section Requests.
Context {W : Type} (send : prepared_request -> Py W response).

Definition requests_post (u : url_arg) (hs : list (string * string)) (body : json)
    : Py W response :=
  let* url := of_outcome (prepare_url u) in
  let* _ := of_outcome (prepare_headers hs) in
  let* _ := of_outcome (get_adapter url) in
  send (mk_prepared "POST" url hs body).
End Requests.

(** ** The interface the client relies on

    [http_post] is the call of lines 43 and 64. [HttpPostSpec] is what it
    promises with respect to a transport [send]: a URL whose string form has
    no adapter, or an invalid header, is rejected with the network state
    untouched; a routable URL with valid headers is handed to the
    transport as exactly one POST carrying the given headers and body. *)
Class HttpPost (W : Type) := http_post : url_arg -> list (string * string) -> json -> Py W response.

Class HttpPostSpec (W : Type) (post : HttpPost W) (send : prepared_request -> Py W response)
    : Prop := {
  post_unroutable u hs b w :
    routable (py_lstrip (py_str u)) = false -> exists e, http_post u hs b w = (w, Raise e);
  post_invalid_headers u hs b w :
    headers_valid hs = false -> exists e, http_post u hs b w = (w, Raise e);
  post_sends s hs b :
    py_lstrip s = s -> routable s = true -> url_host_ok s = true -> headers_valid hs = true ->
    http_post (UrlStr s) hs b ≡ send (mk_prepared "POST" s hs b)
}.

#[export] Instance requests_http_post {W} (send : prepared_request -> Py W response)
  : HttpPost W := requests_post send.

Lemma routable_http (url : string) :
  routable url = true -> py_startswith (py_lower url) "http" = true.
Proof.
  unfold routable, py_startswith. rewrite orb_true_iff.
  intros [H | H]; [apply (prefix_app_l "http" "s://") | apply (prefix_app_l "http" "://")]; done.
Qed.

Lemma prepare_url_routable (s : string) :
  py_lstrip s = s -> routable s = true -> url_host_ok s = true ->
  prepare_url (UrlStr s) = Return s.
Proof.
  intros Hs Hr Hh. unfold prepare_url. simpl. rewrite Hs, (routable_http s Hr), Hh.
  by rewrite andb_false_r.
Qed.

Lemma prepare_url_unroutable (u : url_arg) :
  routable (py_lstrip (py_str u)) = false ->
  match prepare_url u with
  | Return url => routable url = false
  | Raise _ => True
  end.
Proof.
  intros Hr. unfold prepare_url.
  destruct (_ && _); [done |].
  destruct (url_host_ok _); [done |].
  by destruct (py_has_char _ _).
Qed.

(** requests 2.32's pipeline meets the interface, whatever the transport. *)
Lemma requests_post_spec {W} (send : prepared_request -> Py W response) :
  HttpPostSpec W (requests_http_post send) send.
Proof.
  split; unfold http_post, requests_http_post, requests_post.
  - intros u hs b w Hr. pose proof (prepare_url_unroutable u Hr) as Hu.
    unfold bind, of_outcome.
    destruct (prepare_url u) as [url | e]; [| eauto].
    destruct (prepare_headers hs) as [[] | e]; [| eauto].
    unfold get_adapter. rewrite Hu. eauto.
  - intros u hs b w Hh. unfold headers_valid in Hh. unfold bind, of_outcome.
    destruct (prepare_url u) as [url | e]; [| eauto].
    destruct (prepare_headers hs) as [[] | e]; [discriminate | eauto].
  - intros s hs b Hs Hr Hu Hh w. unfold headers_valid in Hh. unfold bind, of_outcome.
    rewrite (prepare_url_routable s Hs Hr Hu).
    destruct (prepare_headers hs) as [[] | e]; [| discriminate].
    unfold get_adapter. by rewrite Hr.
Qed.

(** ** A scripted transport for concrete runs

    The network state records the requests sent so far and the replies
    still to come; a send with no reply left fails to connect. *)
Record script : Type := mk_script {
  sent : list prepared_request;
  replies : list (outcome response)
}.

Definition scripted_send (p : prepared_request) : Py script response :=
  fun w => match replies w with
           | [] => (mk_script (sent w ++ [p]) [], Raise ConnectionError)
           | o :: rest => (mk_script (sent w ++ [p]) rest, o)
           end.
