(* ===== verification/Client.v ===== *)
(** * The YocoClient class (src/yoco_python/client.py)

    The object's attributes are the record [YocoClient]; the attributes
    [charge_id] and [refund_id], which [__init__] does not create, are
    options ([None]: reading them raises [AttributeError]). A method runs
    in [Py (W * YocoClient)]: the network state [W] on the left, the
    object on the right. [charge] and [refund] are translated statement
    by statement and call [requests.post] through the [HttpPost]
    interface of Http.v, so their theorems hold for any implementation
    that meets [HttpPostSpec], the requests 2.32 model among them. *)

From stdpp Require Import base list strings.
From Stdlib Require Import ZArith.
From S2P Require Import Prelude Json Http.

Local Open Scope py_scope.

(** ** The object *)

Record YocoClient : Type := mk_client {
  secret_key : string;
  charge_token : string;
  amount_in_cents : Z;
  currency : string;
  charge_success : bool;
  refund_success : bool;
  charge_id : option json;
  refund_id : option json
}.

(** [YocoClient(secret_key, charge_token, amount_in_cents, currency='ZAR')]:
    [cur] is [None] when the caller leaves [currency] out. Nothing is
    checked: the type hints are not enforced and any int is accepted. *)
Definition init (sk tok : string) (amt : Z) (cur : option string) : YocoClient :=
  {| secret_key := sk; charge_token := tok; amount_in_cents := amt;
     currency := default "ZAR" cur;
     charge_success := false; refund_success := false;
     charge_id := None; refund_id := None |}.

(** The four attribute assignments the methods perform. *)
Definition set_charge_success (b : bool) (c : YocoClient) : YocoClient :=
  {| secret_key := secret_key c; charge_token := charge_token c;
     amount_in_cents := amount_in_cents c; currency := currency c;
     charge_success := b; refund_success := refund_success c;
     charge_id := charge_id c; refund_id := refund_id c |}.

Definition set_charge_id (v : json) (c : YocoClient) : YocoClient :=
  {| secret_key := secret_key c; charge_token := charge_token c;
     amount_in_cents := amount_in_cents c; currency := currency c;
     charge_success := charge_success c; refund_success := refund_success c;
     charge_id := Some v; refund_id := refund_id c |}.

Definition set_refund_success (b : bool) (c : YocoClient) : YocoClient :=
  {| secret_key := secret_key c; charge_token := charge_token c;
     amount_in_cents := amount_in_cents c; currency := currency c;
     charge_success := charge_success c; refund_success := b;
     charge_id := charge_id c; refund_id := refund_id c |}.

Definition set_refund_id (v : json) (c : YocoClient) : YocoClient :=
  {| secret_key := secret_key c; charge_token := charge_token c;
     amount_in_cents := amount_in_cents c; currency := currency c;
     charge_success := charge_success c; refund_success := refund_success c;
     charge_id := charge_id c; refund_id := Some v |}.

(** [self.charge_id]: an [AttributeError] until a charge stored one. *)
Definition attr_charge_id (c : YocoClient) : outcome json :=
  match charge_id c with
  | Some v => Return v
  | None => Raise (AttributeError "'YocoClient' object has no attribute 'charge_id'")
  end.

(** ** The methods *)

Section Methods.
Context {W : Type} `{!HttpPost W}.

Definition self_get : Py (W * YocoClient) YocoClient := on_snd get.
Definition self_modify (f : YocoClient -> YocoClient) : Py (W * YocoClient) unit :=
  on_snd (modify f).

(** [charge], lines 34-42: the request. *)
Definition charges_url : string := "https://online.yoco.com/v1/charges/".

Definition charge_headers (c : YocoClient) : list (string * string) :=
  [("X-Auth-Secret-Key", secret_key c)].

Definition charge_body (c : YocoClient) : json :=
  JDict [("token", JStr (charge_token c));
         ("amountInCents", JInt (amount_in_cents c));
         ("currency", JStr (currency c))].

(** [charge], lines 44-48: what it does with the response. The flag is
    set before ['id'] is read, so a 201 without an id leaves the flag
    set and raises. *)
Definition charge_handle (response : response) : Py (W * YocoClient) json :=
  let* json_response := of_outcome (response_json response) in
  (if bool_decide (status_code response = 201%Z) then
     self_modify (set_charge_success true) ;;;
     let* id := of_outcome (py_getitem json_response "id") in
     self_modify (set_charge_id id)
   else ret tt) ;;;
  ret json_response.

(** [YocoClient.charge], lines 27-48. *)
Definition charge : Py (W * YocoClient) json :=
  let* self := self_get in
  let* response := on_fst (http_post (UrlStr charges_url) (charge_headers self) (charge_body self)) in
  charge_handle response.

(** [refund], lines 57-63: the request. The URL is the 1-tuple the
    trailing comma of line 57 makes. *)
Definition refunds_url : url_arg := UrlTuple [UrlStr "https://online.yoco.com/v1/refunds/"].

Definition refund_headers (c : YocoClient) : list (string * string) :=
  [("X-Auth-Secret-Key", secret_key c)].

Definition refund_body (cid : json) : json := JDict [("chargeId", cid)].

(** [refund], lines 65-69. *)
Definition refund_handle (response : response) : Py (W * YocoClient) json :=
  let* json_response := of_outcome (response_json response) in
  (if bool_decide (status_code response = 200%Z) then
     self_modify (set_refund_success true) ;;;
     let* id := of_outcome (py_getitem json_response "id") in
     self_modify (set_refund_id id)
   else ret tt) ;;;
  ret json_response.

(** [YocoClient.refund], lines 50-69: [self.charge_id] is read while the
    body dict is built, before the request. *)
Definition refund : Py (W * YocoClient) json :=
  let* self := self_get in
  let* cid := of_outcome (attr_charge_id self) in
  let* response := on_fst (http_post refunds_url (refund_headers self) (refund_body cid)) in
  refund_handle response.
End Methods.

(** The request [charge] hands to the transport. *)
Definition charge_request (c : YocoClient) : prepared_request :=
  mk_prepared "POST" charges_url (charge_headers c) (charge_body c).

(** ** Running a method body *)

Section Runs.
Context {W : Type}.

Lemma self_get_run (w : W) c : self_get (w, c) = ((w, c), Return c).
Proof. reflexivity. Qed.

Lemma self_modify_run (w : W) c f : self_modify f (w, c) = ((w, f c), Return tt).
Proof. reflexivity. Qed.

Lemma of_outcome_run {A} (o : outcome A) (st : W * YocoClient) : of_outcome o st = (st, o).
Proof. reflexivity. Qed.
End Runs.

Create HintDb client discriminated.
#[export] Hint Resolve self_get_run self_modify_run of_outcome_run : client.

(** Steps a method body through [self_get], [self_modify], [of_outcome]
    and the statements whose runs the context gives. *)
Ltac client_run :=
  py_run_with ltac:(first [ apply self_get_run | apply self_modify_run | apply of_outcome_run
                          | eapply on_fst_run; eassumption | eassumption ]).

(** ** The response handling of lines 44-48 and 65-69

    Both methods handle the response the same way, with their own status
    code, flag and id attribute: decode the body, test the status, set the
    flag, read ['id'], store it, return the body. [record_on_status] is
    that shape; [charge_handle] and [refund_handle] are instances of it by
    conversion, and its four outcomes are program equivalences. *)
Section Record.
Context {W : Type} (code : Z) (flag : YocoClient -> YocoClient)
        (store : json -> YocoClient -> YocoClient).

Definition record_on_status (response : response) : Py (W * YocoClient) json :=
  let* json_response := of_outcome (response_json response) in
  (if bool_decide (status_code response = code) then
     self_modify flag ;;;
     let* id := of_outcome (py_getitem json_response "id") in
     self_modify (store id)
   else ret tt) ;;;
  ret json_response.

Lemma record_undecodable r : resp_body r = None -> record_on_status r ≡ raise JSONDecodeError.
Proof.
  intros Hb. unfold record_on_status, response_json. rewrite Hb.
  by autorewrite with py_rw.
Qed.

Lemma record_other r j :
  resp_body r = Some j -> status_code r <> code -> record_on_status r ≡ ret j.
Proof.
  intros Hb Hs. unfold record_on_status, response_json. rewrite Hb.
  autorewrite with py_rw. rewrite bool_decide_false by done.
  by autorewrite with py_rw.
Qed.

Lemma record_success r j id :
  resp_body r = Some j -> status_code r = code -> py_getitem j "id" = Return id ->
  record_on_status r ≡ (self_modify flag ;;; self_modify (store id) ;;; ret j).
Proof.
  intros Hb Hs Hid. unfold record_on_status, response_json. rewrite Hb.
  autorewrite with py_rw. rewrite bool_decide_true by done.
  rewrite Hid. by autorewrite with py_rw.
Qed.

Lemma record_no_id r j e :
  resp_body r = Some j -> status_code r = code -> py_getitem j "id" = Raise e ->
  record_on_status r ≡ (self_modify flag ;;; raise e).
Proof.
  intros Hb Hs Hid. unfold record_on_status, response_json. rewrite Hb.
  autorewrite with py_rw. rewrite bool_decide_true by done.
  rewrite Hid. by autorewrite with py_rw.
Qed.
End Record.

Lemma charge_handle_record {W} r :
  @charge_handle W r = record_on_status 201 (set_charge_success true) set_charge_id r.
Proof. reflexivity. Qed.

Lemma refund_handle_record {W} r :
  @refund_handle W r = record_on_status 200 (set_refund_success true) set_refund_id r.
Proof. reflexivity. Qed.

Section Charge.
Context {W : Type} (send : prepared_request -> Py W response).
Context {post : HttpPost W} {Hpost : HttpPostSpec W post send}.

Lemma charges_url_routable :
  py_lstrip charges_url = charges_url /\ routable charges_url = true /\
  url_host_ok charges_url = true.
Proof. split_and!; reflexivity. Qed.

(** [charge] hands exactly [charge_request c] to the transport, once, and
    a transport error leaves the object as it was. *)
Lemma charge_transport (c : YocoClient) (w : W) :
  headers_valid (charge_headers c) = true ->
  charge (w, c) = match send (charge_request c) w with
                  | (w', Return r) => charge_handle r (w', c)
                  | (w', Raise e) => ((w', c), Raise e)
                  end.
Proof.
  intros Hh. destruct charges_url_routable as (Hs & Hr & Hu).
  pose proof (post_sends charges_url _ (charge_body c) Hs Hr Hu Hh w) as Hsend.
  unfold charge. client_run.
  destruct (send (charge_request c) w) as [w' [r | e]] eqn:E;
    unfold charge_request in E; rewrite E in Hsend; client_run; reflexivity.
Qed.

(** C1: a 201 whose body is a dict with an ['id'] sets [charge_success],
    stores the id as [charge_id] and returns the body (spec section 8,
    first property). *)
Theorem charge_created (c : YocoClient) (w w' : W) r items id :
  headers_valid (charge_headers c) = true ->
  send (charge_request c) w = (w', Return r) ->
  status_code r = 201%Z -> resp_body r = Some (JDict items) ->
  dict_lookup "id" items = Some id ->
  charge (w, c) = ((w', set_charge_id id (set_charge_success true c)), Return (JDict items)).
Proof.
  intros Hh Hs Hst Hb Hid. rewrite (charge_transport c w Hh), Hs, charge_handle_record.
  by rewrite (record_success _ _ _ r _ id Hb Hst (py_getitem_dict _ _ _ Hid) (w', c)).
Qed.

(** C3: any other status returns the body and leaves the object as it
    was: no flag, no id (spec section 8, second property). *)
Theorem charge_not_created (c : YocoClient) (w w' : W) r body :
  headers_valid (charge_headers c) = true ->
  send (charge_request c) w = (w', Return r) ->
  status_code r <> 201%Z -> resp_body r = Some body ->
  charge (w, c) = ((w', c), Return body).
Proof.
  intros Hh Hs Hst Hb. rewrite (charge_transport c w Hh), Hs, charge_handle_record.
  by rewrite (record_other _ _ _ r body Hb Hst (w', c)).
Qed.

(** C5: a 201 whose body has no ['id'] (or is no dict) raises the
    subscript's error after [charge_success] was set: the object is left
    flagged as charged with no [charge_id]. *)
Theorem charge_created_without_id (c : YocoClient) (w w' : W) r body e :
  headers_valid (charge_headers c) = true ->
  send (charge_request c) w = (w', Return r) ->
  status_code r = 201%Z -> resp_body r = Some body ->
  py_getitem body "id" = Raise e ->
  charge (w, c) = ((w', set_charge_success true c), Raise e).
Proof.
  intros Hh Hs Hst Hb Hid. rewrite (charge_transport c w Hh), Hs, charge_handle_record.
  by rewrite (record_no_id _ _ _ r body e Hb Hst Hid (w', c)).
Qed.

(** C7: a body that is not JSON raises [JSONDecodeError] before the status
    is looked at: even a 201 (a charge the processor made) leaves the
    object unflagged. *)
Theorem charge_undecodable (c : YocoClient) (w w' : W) r :
  headers_valid (charge_headers c) = true ->
  send (charge_request c) w = (w', Return r) ->
  resp_body r = None ->
  charge (w, c) = ((w', c), Raise JSONDecodeError).
Proof.
  intros Hh Hs Hb. rewrite (charge_transport c w Hh), Hs, charge_handle_record.
  by rewrite (record_undecodable _ _ _ r Hb (w', c)).
Qed.

(** An invalid secret key (one the HTTP layer rejects as a header value)
    is rejected before anything is sent: network and object untouched. *)
Lemma charge_rejected (c : YocoClient) (w : W) :
  headers_valid (charge_headers c) = false ->
  exists e, charge (w, c) = ((w, c), Raise e).
Proof.
  intros Hh. destruct (post_invalid_headers (UrlStr charges_url) _ (charge_body c) w Hh)
    as [e He]. exists e. unfold charge. client_run. reflexivity.
Qed.
End Charge.

(** ** [refund] (lines 50-69) *)

Section Refund.
Context {W : Type} (send : prepared_request -> Py W response).
Context {post : HttpPost W} {Hpost : HttpPostSpec W post send}.

(** [str(url)] of line 57 is the text of a tuple: no adapter serves it. *)
Lemma refunds_url_unroutable : routable (py_lstrip (py_str refunds_url)) = false.
Proof. reflexivity. Qed.

(** C4: without a stored [charge_id], [refund] raises [AttributeError]
    while it builds the body: nothing is sent and nothing changes (spec
    section 8, fourth property). *)
Theorem refund_without_charge (c : YocoClient) (w : W) :
  charge_id c = None ->
  refund (w, c) = ((w, c), Raise (AttributeError "'YocoClient' object has no attribute 'charge_id'")).
Proof.
  intros Hc. unfold refund. client_run.
  unfold attr_charge_id. rewrite Hc. client_run. reflexivity.
Qed.

(** [refund] never reaches the network, whatever the object's state: it
    raises, and the network and the object are left as they were. *)
Lemma refund_raises (c : YocoClient) (w : W) :
  exists e, refund (w, c) = ((w, c), Raise e).
Proof.
  destruct (charge_id c) as [cid |] eqn:Hc.
  - destruct (post_unroutable refunds_url (refund_headers c) (refund_body cid) w
                refunds_url_unroutable) as [e He].
    exists e. unfold refund. client_run.
    unfold attr_charge_id. rewrite Hc. client_run. reflexivity.
  - eexists. by apply refund_without_charge.
Qed.
End Refund.

(** C12: what lines 65-69 would do with a response, had the request been sent:
    a 200 sets [refund_success] and stores ['id'] as [refund_id]. *)
Theorem refund_handle_refunded {W} (w : W) (c : YocoClient) r items id :
  status_code r = 200%Z -> resp_body r = Some (JDict items) ->
  dict_lookup "id" items = Some id ->
  refund_handle r (w, c) = ((w, set_refund_id id (set_refund_success true c)), Return (JDict items)).
Proof.
  intros Hst Hb Hid. rewrite refund_handle_record.
  by rewrite (record_success _ _ _ r _ id Hb Hst (py_getitem_dict _ _ _ Hid) (w, c)).
Qed.

(** ** With requests 2.32 as the HTTP layer *)

(** The error [refund] raises: the missing attribute, else the header
    error for an invalid secret key, else requests' refusal of the URL. *)
Definition refund_error (c : YocoClient) : exn :=
  match charge_id c with
  | None => AttributeError "'YocoClient' object has no attribute 'charge_id'"
  | Some _ =>
      match prepare_headers (refund_headers c) with
      | Raise e => e
      | Return _ => InvalidSchema ("No connection adapters were found for "
                                   +:+ py_repr_str (py_str refunds_url))
      end
  end.

(** C2: with requests 2.32, [refund] fails on every object and every
    network: it raises [refund_error c] and sends nothing, so no refund is
    ever made and [refund_success] is never set. *)
Theorem refund_always_fails {W} (send : prepared_request -> Py W response)
    (c : YocoClient) (w : W) :
  @refund W (requests_http_post send) (w, c) = ((w, c), Raise (refund_error c)).
Proof.
  unfold refund, refund_error. client_run. unfold attr_charge_id.
  destruct (charge_id c) as [cid |]; [| reflexivity].
  unfold bind, of_outcome, on_fst, http_post, requests_http_post, requests_post.
  cbn [fst snd]. by destruct (prepare_headers (refund_headers c)).
Qed.

(** C11: with requests 2.32, a secret key that is not a valid header value
    makes [charge] raise [InvalidHeader] before anything is sent, and the
    exception's message quotes the secret key. *)
Theorem charge_invalid_key_leaks {W} (send : prepared_request -> Py W response)
    (c : YocoClient) (w : W) :
  valid_header_value (secret_key c) = false ->
  @charge W (requests_http_post send) (w, c) =
    ((w, c), Raise (InvalidHeader (invalid_header_msg "value" (secret_key c)))).
Proof.
  intros Hv. unfold charge. client_run.
  unfold bind, of_outcome, on_fst, http_post, requests_http_post, requests_post.
  cbn [fst snd]. rewrite prepare_url_routable by reflexivity.
  unfold charge_headers, prepare_headers. cbn -[valid_header_value invalid_header_msg].
  by rewrite Hv.
Qed.

(** The header dict of line 35 is valid exactly when the secret key is a
    valid header value: its name is a constant. *)
Lemma charge_headers_valid (c : YocoClient) :
  headers_valid (charge_headers c) = valid_header_value (secret_key c).
Proof.
  unfold headers_valid, charge_headers, prepare_headers. cbn -[valid_header_value].
  by destruct (valid_header_value (secret_key c)).
Qed.

(** [charge_handle] does not touch the network. *)
Lemma charge_handle_net {W} (r : response) (w : W) c : (charge_handle r (w, c)).1.1 = w.
Proof.
  unfold charge_handle, response_json, bind, of_outcome, ret, self_modify, on_snd, modify.
  cbn [fst snd]. destruct (resp_body r) as [j |]; [| done].
  case_bool_decide; cbn; [| done]. by destruct (py_getitem j "id").
Qed.

(** C6: after [YocoClient(sk, tok, amt, cur)], [charge] puts exactly one
    request on the wire: a POST to the charges endpoint with the secret
    key header and the body [{token, amountInCents, currency}] holding the
    constructor's arguments unmodified ('ZAR' when [currency] was left
    out), for every integer amount: nothing is validated, bounded or
    rounded. *)
Theorem charge_posts_init_args sk tok (amt : Z) cur sent0 replies0 :
  valid_header_value sk = true ->
  sent (@charge script (requests_http_post scripted_send)
          (mk_script sent0 replies0, init sk tok amt cur)).1.1 =
  sent0 ++ [mk_prepared "POST" "https://online.yoco.com/v1/charges/"
              [("X-Auth-Secret-Key", sk)]
              (JDict [("token", JStr tok); ("amountInCents", JInt amt);
                      ("currency", JStr (default "ZAR" cur))])].
Proof.
  intros Hv.
  rewrite (charge_transport scripted_send (Hpost := requests_post_spec scripted_send))
    by (rewrite charge_headers_valid; exact Hv).
  unfold scripted_send. cbn [replies sent].
  destruct replies0 as [| [r | e] rest]; cbn -[charge_handle]; try reflexivity.
  by rewrite charge_handle_net.
Qed.

(** ** Concrete runs

    The spec's scenarios on the scripted transport behind requests 2.32. *)

Definition test_client : YocoClient := init "sk_test_abc" "tok_test_123" 5000 None.

Definition reply (status : Z) (body : json) : outcome response :=
  Return (mk_response status (Some body)).

Lemma charge_created_witness :
  @charge script (requests_http_post scripted_send)
    (mk_script [] [reply 201 (JDict [("id", JStr "ch_123")])], test_client) =
  ((mk_script [charge_request test_client] [],
    set_charge_id (JStr "ch_123") (set_charge_success true test_client)),
   Return (JDict [("id", JStr "ch_123")])).
Proof.
  apply (charge_created scripted_send (Hpost := requests_post_spec scripted_send)
           _ _ _ (mk_response 201 (Some (JDict [("id", JStr "ch_123")])))); reflexivity.
Defined.

Lemma charge_not_created_witness :
  @charge script (requests_http_post scripted_send)
    (mk_script [] [reply 400 (JDict [("error", JStr "invalid_token")])], test_client) =
  ((mk_script [charge_request test_client] [], test_client),
   Return (JDict [("error", JStr "invalid_token")])).
Proof.
  apply (charge_not_created scripted_send (Hpost := requests_post_spec scripted_send)
           _ _ _ (mk_response 400 (Some (JDict [("error", JStr "invalid_token")]))));
    [reflexivity | reflexivity | simpl; lia | reflexivity].
Defined.

Lemma charge_created_without_id_witness :
  @charge script (requests_http_post scripted_send)
    (mk_script [] [reply 201 (JDict [("status", JStr "successful")])], test_client) =
  ((mk_script [charge_request test_client] [], set_charge_success true test_client),
   Raise (KeyError "id")).
Proof.
  apply (charge_created_without_id scripted_send (Hpost := requests_post_spec scripted_send)
           _ _ _ (mk_response 201 (Some (JDict [("status", JStr "successful")])))
           (JDict [("status", JStr "successful")])); reflexivity.
Defined.

Lemma charge_undecodable_witness :
  @charge script (requests_http_post scripted_send)
    (mk_script [] [Return (mk_response 201 None)], test_client) =
  ((mk_script [charge_request test_client] [], test_client), Raise JSONDecodeError).
Proof.
  apply (charge_undecodable scripted_send (Hpost := requests_post_spec scripted_send)
           _ _ _ (mk_response 201 None)); reflexivity.
Defined.

(** A secret key with a line break in it. *)
Definition broken_key_client : YocoClient :=
  init ("sk_test" +:+ String (Ascii.ascii_of_N 10) "abc") "tok_test_123" 5000 None.

Lemma charge_invalid_key_leaks_witness :
  valid_header_value (secret_key broken_key_client) = false /\
  @charge script (requests_http_post scripted_send) (mk_script [] [], broken_key_client) =
    ((mk_script [] [], broken_key_client),
     Raise (InvalidHeader (invalid_header_msg "value" (secret_key broken_key_client)))).
Proof. split; [reflexivity | apply charge_invalid_key_leaks; reflexivity]. Defined.

Lemma refund_without_charge_witness :
  @refund script (requests_http_post scripted_send) (mk_script [] [], test_client) =
  ((mk_script [] [], test_client), Raise (AttributeError "'YocoClient' object has no attribute 'charge_id'")).
Proof.
  apply refund_without_charge. reflexivity.
Defined.

(** After the charge of [charge_created_witness]. *)
Definition charged_client : YocoClient :=
  set_charge_id (JStr "ch_123") (set_charge_success true test_client).

Lemma refund_always_fails_witness :
  @refund script (requests_http_post scripted_send)
    (mk_script [] [reply 200 (JDict [("id", JStr "rf_456")])], charged_client) =
  ((mk_script [] [reply 200 (JDict [("id", JStr "rf_456")])], charged_client),
   Raise (InvalidSchema ("No connection adapters were found for "
                         +:+ String dquote "('https://online.yoco.com/v1/refunds/',)"
                         +:+ String dquote EmptyString))).
Proof. apply refund_always_fails. Defined.

Lemma refund_handle_refunded_witness :
  @refund_handle script
    (mk_response 200 (Some (JDict [("id", JStr "rf_456")]))) (mk_script [] [], charged_client) =
  ((mk_script [] [], set_refund_id (JStr "rf_456") (set_refund_success true charged_client)),
   Return (JDict [("id", JStr "rf_456")])).
Proof. apply refund_handle_refunded; reflexivity. Defined.

Lemma charge_posts_init_args_witness :
  valid_header_value "sk_test_abc" = true /\
  sent (@charge script (requests_http_post scripted_send)
          (mk_script [] [], init "sk_test_abc" "tok_test_123" (-(2 ^ 70)) None)).1.1 =
  [mk_prepared "POST" "https://online.yoco.com/v1/charges/"
     [("X-Auth-Secret-Key", "sk_test_abc")]
     (JDict [("token", JStr "tok_test_123"); ("amountInCents", JInt (-(2 ^ 70)));
             ("currency", JStr "ZAR")])].
Proof. split; [reflexivity | apply charge_posts_init_args; reflexivity]. Defined.
