(* ===== verification/Lifecycle.v ===== *)
(** * The object's lifecycle: sequences of calls

    A caller constructs a [YocoClient] and calls [charge] and [refund] in
    any order, catching or not what they raise; the network may change
    between calls. [call_step] is one call, [reachable] the states a
    sequence of calls leads to from [__init__]. The invariant [client_inv]
    holds in every reachable state (rule induction on [reachable]); it
    implies that [refund_success] is never set.

    The spec's own lifecycle (sections 3 and 4.1) is the abstract machine
    [spec_step] on [phase]; [phase_of] reads a phase off the object's
    attributes. [charge] from a fresh object refines the spec's charge
    step, except that a 201 without an id leaves an object that has no
    phase at all; the witness of [charge_refines_spec] runs that case. *)

From stdpp Require Import base list strings.
From Stdlib Require Import ZArith.
From S2P Require Import Prelude Json Http Client.

Local Open Scope py_scope.

Section Lifecycle.
Context {W : Type} (send : prepared_request -> Py W response).
Context {post : HttpPost W} {Hpost : HttpPostSpec W post send}.

(** One call of a method by the caller, whether it returns or raises. *)
Inductive call_step : W * YocoClient -> W * YocoClient -> Prop :=
  | step_charge st st' o : charge st = (st', o) -> call_step st st'
  | step_refund st st' o : refund st = (st', o) -> call_step st st'.

(** The states reached from [YocoClient(sk, tok, amt, cur)] by calls, the
    network changing arbitrarily in between. *)
Inductive reachable (sk tok : string) (amt : Z) (cur : option string)
    : W * YocoClient -> Prop :=
  | reach_init w : reachable sk tok amt cur (w, init sk tok amt cur)
  | reach_call st st' : reachable sk tok amt cur st -> call_step st st' ->
                        reachable sk tok amt cur st'
  | reach_env w w' c : reachable sk tok amt cur (w, c) -> reachable sk tok amt cur (w', c).
End Lifecycle.

(** What every reachable object satisfies: the constructor's arguments
    are kept as given, no refund was recorded, and a stored [charge_id]
    comes with [charge_success]. *)
Definition client_inv (sk tok : string) (amt : Z) (cur : option string) (c : YocoClient) : Prop :=
  secret_key c = sk /\ charge_token c = tok /\ amount_in_cents c = amt /\
  currency c = default "ZAR" cur /\
  refund_success c = false /\ refund_id c = None /\
  (is_Some (charge_id c) -> charge_success c = true).

(** The spec's lifecycle. *)
Inductive phase : Type :=
  | Created
  | Charged (id : json)
  | Refunded (cid rid : json).

(** Its steps: a successful charge, a successful refund, and a call that
    fails (non-success status, transport error) and changes nothing. *)
Inductive spec_step : phase -> phase -> Prop :=
  | spec_charge_ok id : spec_step Created (Charged id)
  | spec_refund_ok cid rid : spec_step (Charged cid) (Refunded cid rid)
  | spec_stutter p : spec_step p p.

(** The phase an object is in, read off its attributes; [None] for a
    combination the spec has no phase for. *)
Definition phase_of (c : YocoClient) : option phase :=
  match charge_success c, charge_id c, refund_success c, refund_id c with
  | false, None, false, None => Some Created
  | true, Some id, false, None => Some (Charged id)
  | true, Some cid, true, Some rid => Some (Refunded cid rid)
  | _, _, _, _ => None
  end.

(** ** What a call can do to the object *)

(** The three objects [charge_handle] can leave: the object unchanged, the
    object flagged (a 201 whose id could not be read), or flagged with an
    id. The network is not touched. *)
Lemma charge_handle_effect {W} (r : response) (w w' : W) c c' o :
  charge_handle r (w, c) = ((w', c'), o) ->
  w' = w /\ (c' = c \/ (c' = set_charge_success true c /\ exists e, o = Raise e) \/
             exists id, c' = set_charge_id id (set_charge_success true c)).
Proof.
  unfold charge_handle, response_json, bind, of_outcome, ret, self_modify, on_snd, modify.
  cbn [fst snd]. destruct (resp_body r) as [j |]; [| intros [= <- <- <-]; auto].
  case_bool_decide; cbn; [| intros [= <- <- <-]; auto].
  destruct (py_getitem j "id") as [id | e]; intros [= <- <- <-]; eauto 10.
Qed.

Section Effects.
Context {W : Type} (send : prepared_request -> Py W response).
Context {post : HttpPost W} {Hpost : HttpPostSpec W post send}.

Lemma charge_effect (w w' : W) c c' o :
  charge (w, c) = ((w', c'), o) ->
  c' = c \/ (c' = set_charge_success true c /\ exists e, o = Raise e) \/
  exists id, c' = set_charge_id id (set_charge_success true c).
Proof.
  destruct (headers_valid (charge_headers c)) eqn:Hh.
  - rewrite (charge_transport send c w Hh).
    destruct (send (charge_request c) w) as [w1 [r | e]].
    + intros Hc. apply charge_handle_effect in Hc. tauto.
    + intros [= _ <- _]. auto.
  - destruct (charge_rejected send c w Hh) as [e ->]. intros [= _ <- _]. auto.
Qed.

Lemma refund_effect (w w' : W) c c' o : refund (w, c) = ((w', c'), o) -> c' = c /\ w' = w.
Proof.
  destruct (refund_raises send c w) as [e ->]. by intros [= -> -> _].
Qed.

Lemma call_step_effect (w w' : W) c c' :
  call_step (w, c) (w', c') ->
  c' = c \/ c' = set_charge_success true c \/
  exists id, c' = set_charge_id id (set_charge_success true c).
Proof.
  inversion 1 as [? ? o Hc | ? ? o Hr]; subst.
  - destruct (charge_effect _ _ _ _ _ Hc) as [-> | [[-> _] | ?]]; auto.
  - apply refund_effect in Hr as [-> _]. auto.
Qed.
End Effects.

(** ** The invariant *)

Lemma client_inv_init sk tok amt cur : client_inv sk tok amt cur (init sk tok amt cur).
Proof. unfold client_inv. simpl. split_and!; try done. Qed.

Lemma client_inv_flag sk tok amt cur c :
  client_inv sk tok amt cur c -> client_inv sk tok amt cur (set_charge_success true c).
Proof. unfold client_inv. simpl. naive_solver. Qed.

Lemma client_inv_id sk tok amt cur c id :
  client_inv sk tok amt cur c ->
  client_inv sk tok amt cur (set_charge_id id (set_charge_success true c)).
Proof. unfold client_inv. simpl. naive_solver. Qed.

#[export] Hint Resolve client_inv_init client_inv_flag client_inv_id : client.

Lemma phase_of_Created c :
  phase_of c = Some Created ->
  charge_success c = false /\ charge_id c = None /\ refund_success c = false /\ refund_id c = None.
Proof.
  unfold phase_of.
  destruct (charge_success c), (charge_id c), (refund_success c), (refund_id c);
    intros H; try discriminate H; auto.
Qed.

Section Invariant.
Context {W : Type} (send : prepared_request -> Py W response).
Context {post : HttpPost W} {Hpost : HttpPostSpec W post send}.

(** C8: in every state a sequence of calls reaches, the constructor's
    arguments are unchanged, [refund_success] is false and [refund_id]
    unset, and a stored [charge_id] comes with [charge_success]. *)
Theorem reachable_client_inv sk tok amt cur (w : W) c :
  reachable sk tok amt cur (w, c) -> client_inv sk tok amt cur c.
Proof.
  remember (w, c) as st eqn:Est. intros Hr. revert w c Est.
  induction Hr as [w0 | [w1 c1] [w2 c2] Hr IH Hs | w1 w2 c1 Hr IH];
    intros w c [= <- <-]; [auto with client | | exact (IH _ _ eq_refl)].
  specialize (IH _ _ eq_refl).
  destruct (call_step_effect send _ _ _ _ Hs) as [-> | [-> | [id ->]]];
    auto with client.
Qed.

(** C10: once [charge_success] is set, no call clears it, and a stored
    [charge_id] is never removed: a later charge answered with a
    non-201 status leaves the earlier success and id in place. *)
Theorem charge_success_sticky (w w' : W) c c' :
  call_step (w, c) (w', c') -> charge_success c = true ->
  charge_success c' = true /\ (is_Some (charge_id c) -> is_Some (charge_id c')).
Proof.
  intros Hs Hc. destruct (call_step_effect send _ _ _ _ Hs) as [-> | [-> | [id ->]]];
    simpl; eauto.
Qed.

(** C9: from a fresh object, [charge] either takes a step of the spec's
    lifecycle (a successful charge, or a failed call that changes
    nothing), or ends raising in a state the spec has no phase for:
    flagged as charged, with no [charge_id]. *)
Theorem charge_refines_spec (w w' : W) c c' o :
  phase_of c = Some Created -> charge (w, c) = ((w', c'), o) ->
  (exists p', phase_of c' = Some p' /\ spec_step Created p') \/
  (phase_of c' = None /\ charge_success c' = true /\ charge_id c' = None /\ exists e, o = Raise e).
Proof.
  intros Hp Hc. pose proof (phase_of_Created c Hp) as (Hs & Hid & Hrs & Hrid).
  destruct (charge_effect send _ _ _ _ _ Hc) as [-> | [[-> He] | [id ->]]].
  - left. exists Created. split; [done | constructor].
  - right. unfold phase_of. simpl. rewrite Hid. auto.
  - left. exists (Charged id). unfold phase_of. simpl. rewrite Hrs, Hrid.
    split; [done | constructor].
Qed.
End Invariant.

(** ** Concrete runs on the scripted transport behind requests 2.32 *)

Lemma reachable_client_inv_witness :
  reachable (post := requests_http_post scripted_send) "sk_test_abc" "tok_test_123" 5000 None
    (mk_script [charge_request test_client] [], charged_client) /\
  client_inv "sk_test_abc" "tok_test_123" 5000 None charged_client.
Proof.
  assert (Hr : reachable (post := requests_http_post scripted_send)
                 "sk_test_abc" "tok_test_123" 5000 None
                 (mk_script [charge_request test_client] [], charged_client)).
  { eapply reach_call;
      [apply (reach_init _ _ _ _ (mk_script [] [reply 201 (JDict [("id", JStr "ch_123")])])) |].
    eapply step_charge. reflexivity. }
  split; [exact Hr |].
  exact (reachable_client_inv scripted_send (Hpost := requests_post_spec scripted_send) _ _ _ _ _ _ Hr).
Defined.

Lemma charge_success_sticky_witness :
  call_step (post := requests_http_post scripted_send)
    (mk_script [] [reply 400 (JDict [("error", JStr "invalid_token")])], charged_client)
    (mk_script [charge_request charged_client] [], charged_client) /\
  charge_success charged_client = true /\
  charge_success charged_client = true /\ (is_Some (charge_id charged_client) -> is_Some (charge_id charged_client)).
Proof.
  assert (Hs : call_step (post := requests_http_post scripted_send)
                 (mk_script [] [reply 400 (JDict [("error", JStr "invalid_token")])], charged_client)
                 (mk_script [charge_request charged_client] [], charged_client)).
  { eapply step_charge. reflexivity. }
  split; [exact Hs |]. split; [reflexivity |].
  exact (charge_success_sticky scripted_send (Hpost := requests_post_spec scripted_send)
           _ _ _ _ Hs eq_refl).
Defined.

(** A 201 without an id: [charge] takes the branch outside the spec. *)
Lemma charge_refines_spec_witness :
  phase_of test_client = Some Created /\
  ((exists p', phase_of (set_charge_success true test_client) = Some p' /\ spec_step Created p') \/
   (phase_of (set_charge_success true test_client) = None /\
    charge_success (set_charge_success true test_client) = true /\
    charge_id (set_charge_success true test_client) = None /\
    exists e, (Raise (KeyError "id") : outcome json) = Raise e)).
Proof.
  split; [reflexivity |].
  apply (charge_refines_spec scripted_send (Hpost := requests_post_spec scripted_send)
           (mk_script [] [reply 201 (JDict [("status", JStr "successful")])])
           (mk_script [charge_request test_client] []) test_client); reflexivity.
Defined.
